(** * debug_vm_creation.py: a shallow embedding and its properties

    The script prints a fixed narrative about a suspected race between
    asynchronous VM creation and root-volume detection.  Its only
    computed datum is a job identifier built from the wall clock.

    Python strings are modelled as [string] (every literal of the
    script is ASCII), Python integers as [Z], and the float returned by
    [time.time()] as a rational of [Q]: every finite float is one, and
    [int] of a float is exact. *)

From Stdlib Require Import String Ascii List ZArith QArith Qround Lia Bool.
From Stdlib Require Import DecimalString DecimalZ Lqa.
Import ListNotations.

Local Open Scope string_scope.

(** ** Characters that cannot be written inside a literal *)

Definition dquote : ascii := "034"%char.
Definition backslash : ascii := "092"%char.
Definition newline : ascii := "010"%char.

Definition nl : string := String newline "".

(** ** Builtins: [int] on a float and [str] on an integer *)

(** [int(x)] for a float [x]: truncation toward zero. *)
Definition py_int (x : Q) : Z := Z.quot (Qnum x) (Zpos (Qden x)).

(** [str(n)] (and the formatting of [{n}] in an f-string) for an
    integer [n]: decimal digits, with a leading minus sign if negative. *)
Definition py_str (n : Z) : string := NilZero.string_of_int (Z.to_int n).

(** Reading a decimal integer back, the inverse of [py_str]. *)
Definition parse_int (s : string) : option Z :=
  option_map Z.of_int (NilZero.int_of_string s).

(** ** The [json] module, restricted to what the script passes to it:
    a dictionary from strings to strings, in insertion order. *)

Definition dict := list (string * string).

Fixpoint dict_get (k : string) (d : dict) : option string :=
  match d with
  | [] => None
  | (k', v) :: d' => if String.eqb k k' then Some v else dict_get k d'
  end.

Module json.

Definition hex_digit (n : N) : ascii :=
  match n with
  | 0 => "0" | 1 => "1" | 2 => "2" | 3 => "3" | 4 => "4"
  | 5 => "5" | 6 => "6" | 7 => "7" | 8 => "8" | 9 => "9"
  | 10 => "a" | 11 => "b" | 12 => "c" | 13 => "d" | 14 => "e"
  | _ => "f"
  end%N%char.

(** One character of [py_encode_basestring_ascii]: the backslash and the
    double quote are escaped, the usual control characters have short
    forms, and everything else outside [' '..'~'] becomes [\u00xx]. *)
Definition escape_char (c : ascii) : string :=
  let n := N_of_ascii c in
  if (n =? 34)%N then String backslash (String dquote "")
  else if (n =? 92)%N then String backslash (String backslash "")
  else if (n =? 8)%N then String backslash "b"
  else if (n =? 12)%N then String backslash "f"
  else if (n =? 10)%N then String backslash "n"
  else if (n =? 13)%N then String backslash "r"
  else if (n =? 9)%N then String backslash "t"
  else if ((32 <=? n) && (n <=? 126))%N then String c ""
  else String backslash
         (String "u" (String "0" (String "0"
           (String (hex_digit (n / 16)) (String (hex_digit (n mod 16)) ""))))).

Fixpoint escape (s : string) : string :=
  match s with
  | EmptyString => ""
  | String c s' => escape_char c ++ escape s'
  end.

(** A JSON string literal. *)
Definition encode_str (s : string) : string :=
  String dquote (escape s ++ String dquote "").

Fixpoint spaces (n : nat) : string :=
  match n with
  | O => ""
  | S n' => String " " (spaces n')
  end.

(** [json.dumps(obj, indent=indent)] on a top-level dictionary: the
    empty dictionary is [{}]; otherwise every item goes on a line of its
    own, indented, items separated by a comma, key and value by [": "]. *)
Definition dumps (obj : dict) (indent : nat) : string :=
  match obj with
  | [] => "{}"
  | _ =>
      let newline_indent := nl ++ spaces indent in
      let item_separator := "," ++ newline_indent in
      let item (kv : string * string) :=
        encode_str (fst kv) ++ ": " ++ encode_str (snd kv) in
      "{" ++ newline_indent
          ++ String.concat item_separator (map item obj)
          ++ nl ++ "}"
  end.

End json.

(** ** The request descriptor of [test_vm_creation_timing], as a
    function of the clock reading [now] that [time.time()] returned. *)

Definition test_vm_request (now : Q) : dict :=
  [ ("vm_id", "debug-test-vm-001");
    ("vm_name", "debug-test-vm-001");
    ("failover_job_id", "debug-test-" ++ py_str (py_int now)) ].

(** ** The environment of one execution *)

(** What the operating system and the installation decide: the clock,
    the command line, the environment variables, which modules can be
    imported, and whether the [n]-th call of [print] gets its text out
    or raises. *)
Record World := {
  clock : Q;
  argv : list string;
  environ : list (string * string);
  installed : string -> bool;
  stdout_ok : nat -> bool
}.

(** The effects of the script's own statements, in the order they
    happen.  What the interpreter does around them (the traceback of an
    uncaught exception, the flush at shutdown) is left out. *)
Inductive event :=
| EvImport (name : string)    (* a module was loaded: its files were read
                                 and its top-level code ran *)
| EvClock                     (* the wall clock was read *)
| EvStdout (text : string)    (* [text] was written to standard output *)
| EvConnect (url : string).   (* a socket was opened to [url] *)

Inductive exn :=
| ModuleNotFoundError (name : string)
| OSError.

Inductive result (A : Type) :=
| Ok (a : A)
| Raise (e : exn).
Arguments Ok {A} a.
Arguments Raise {A} e.

(** The interpreter state: the module's global data bindings and the
    effects performed so far. *)
Record State := {
  globals : list (string * string);
  trace : list event
}.

Definition initial_state : State := {| globals := []; trace := [] |}.

Definition log (e : event) (s : State) : State :=
  {| globals := globals s; trace := trace s ++ [e] |}.

Definition is_stdout (e : event) : bool :=
  match e with EvStdout _ => true | _ => false end.

(** Number of writes to standard output performed so far. *)
Definition writes (s : State) : nat := length (filter is_stdout (trace s)).

(** The chunks written to standard output, and the text they make up. *)
Fixpoint written (tr : list event) : list string :=
  match tr with
  | [] => []
  | EvStdout text :: tr' => text :: written tr'
  | _ :: tr' => written tr'
  end.

Definition stdout (s : State) : string := String.concat "" (written (trace s)).

(** ** A state and exception monad for module-level and function code *)

Definition Py (A : Type) : Type := World -> State -> result A * State.

Definition ret {A : Type} (a : A) : Py A := fun _ s => (Ok a, s).

Definition bind {A B : Type} (m : Py A) (k : A -> Py B) : Py B :=
  fun w s =>
    match m w s with
    | (Ok a, s') => k a w s'
    | (Raise e, s') => (Raise e, s')
    end.

Declare Scope py_scope.
Delimit Scope py_scope with py.
Notation "x <- m ;; k" := (bind m (fun x => k))
  (at level 100, m at next level, right associativity) : py_scope.
Notation "m ;; k" := (bind m (fun _ => k))
  (at level 100, right associativity) : py_scope.
Local Open Scope py_scope.

(** [import name]: fails when the module cannot be found.  The load
    is one effect; what the module does while it loads is not told
    apart, nor are the imports the module makes itself. *)
Definition import (name : string) : Py unit :=
  fun w s =>
    if installed w name then (Ok tt, log (EvImport name) s)
    else (Raise (ModuleNotFoundError name), s).

(** [NAME = value] at module level. *)
Definition assign (name value : string) : Py unit :=
  fun _ s => (Ok tt, {| globals := (name, value) :: globals s; trace := trace s |}).

(** [print(text)] on a standard output that is written through, call
    by call: the text and its line terminator go out, or the call
    raises [OSError] and nothing of them goes out.  The buffer the
    interpreter may keep, and the two writes it makes per call, are not
    told apart here; [Abstract] below leaves [print] open. *)
Definition print (text : string) : Py unit :=
  fun w s =>
    if stdout_ok w (writes s) then (Ok tt, log (EvStdout (text ++ nl)) s)
    else (Raise OSError, s).

Module time.
(** [time.time()]: the current wall-clock reading, in seconds. *)
Definition time : Py Q := fun w s => (Ok (clock w), log EvClock s).
End time.

Module requests.
(** [requests.get(url)] opens a connection to [url]; the response is
    not modelled.  The script imports the module and never calls it. *)
Definition get (url : string) : Py unit :=
  fun _ s => (Ok tt, log (EvConnect url) s).
End requests.

(** ** The script *)

Definition OMA_API_BASE : string := "http://localhost:8080".

Definition test_vm_creation_timing : Py bool :=
  print "=== DEBUGGING VM CREATION AND ROOT VOLUME TIMING ===" ;;
  now <- time.time ;;
  let test_vm_request := test_vm_request now in
  print ("1. Creating test VM with request: " ++ json.dumps test_vm_request 2) ;;
  print "2. Monitoring VM creation timing..." ;;
  print "RACE CONDITION SCENARIO:" ;;
  print "  Step 1: VM creation submitted to CloudStack" ;;
  print "  Step 2: CloudStack returns job ID immediately" ;;
  print "  Step 3: WaitForAsyncJob waits for job completion" ;;
  print "  Step 4: waitForVMFullyProvisioned waits for root volume" ;;
  print "  Step 5: VM operations proceed..." ;;
  print "" ;;
  print "ISSUE: If Step 4 times out or fails to detect root volume," ;;
  print "       the subsequent root volume deletion will fail!" ;;
  ret true.

(** The module body.  [base] is the value bound to [OMA_API_BASE] and
    [name] the value of [__name__]: ["__main__"] when the file is run as
    a script. *)
Definition module_body (base name : string) : Py unit :=
  import "requests" ;;
  import "json" ;;
  import "time" ;;
  import "sys" ;;
  assign "OMA_API_BASE" base ;;
  if String.eqb name "__main__"
  then (_ <- test_vm_creation_timing ;; ret tt)
  else ret tt.

(** Running the file as a script. *)
Definition run_script (base : string) (w : World) : result unit * State :=
  module_body base "__main__" w initial_state.

Definition main (w : World) : result unit * State := run_script OMA_API_BASE w.

(** Exit status of the process: 0 after a normal end, 1 after an
    exception that nothing caught.  The value returned by the function
    plays no part: the [__main__] guard drops it.  The flush at
    shutdown is taken to succeed; [exit_status_at_shutdown] below does
    without that. *)
Definition exit_status {A : Type} (r : result A) : Z :=
  match r with
  | Ok _ => 0
  | Raise _ => 1
  end.

(** ** The script over any implementation of its builtins

    The statements of the file once more, with [import], the
    module-level assignment, [print] and [time.time] left open:
    operations on a state of any type [S] that return or raise.  An
    interpreter that buffers standard output, one that writes it
    through and one whose standard output is missing are all
    instances, and so is [print] above. *)

Definition M (S A : Type) : Type := S -> result A * S.

Definition mret {S A : Type} (a : A) : M S A := fun s => (Ok a, s).

Definition mbind {S A B : Type} (m : M S A) (k : A -> M S B) : M S B :=
  fun s =>
    match m s with
    | (Ok a, s') => k a s'
    | (Raise e, s') => (Raise e, s')
    end.

Declare Scope m_scope.
Delimit Scope m_scope with m.
Notation "x <- m ;; k" := (mbind m (fun x => k))
  (at level 100, m at next level, right associativity) : m_scope.
Notation "m ;; k" := (mbind m (fun _ => k))
  (at level 100, right associativity) : m_scope.


Module Abstract.

Section Builtins.

Context {S : Type}.
Variable import : string -> M S unit.
Variable assign : string -> string -> M S unit.
Variable print : string -> M S unit.
Variable time_time : M S Q.
Variable flush : M S unit.

Definition test_vm_creation_timing : M S bool :=
  (print "=== DEBUGGING VM CREATION AND ROOT VOLUME TIMING ===" ;;
   now <- time_time ;;
   let test_vm_request := test_vm_request now in
   print ("1. Creating test VM with request: " ++ json.dumps test_vm_request 2) ;;
   print "2. Monitoring VM creation timing..." ;;
   print "RACE CONDITION SCENARIO:" ;;
   print "  Step 1: VM creation submitted to CloudStack" ;;
   print "  Step 2: CloudStack returns job ID immediately" ;;
   print "  Step 3: WaitForAsyncJob waits for job completion" ;;
   print "  Step 4: waitForVMFullyProvisioned waits for root volume" ;;
   print "  Step 5: VM operations proceed..." ;;
   print "" ;;
   print "ISSUE: If Step 4 times out or fails to detect root volume," ;;
   print "       the subsequent root volume deletion will fail!" ;;
   mret true)%m.

Definition module_body (base name : string) : M S unit :=
  (import "requests" ;;
   import "json" ;;
   import "time" ;;
   import "sys" ;;
   assign "OMA_API_BASE" base ;;
   if String.eqb name "__main__"
   then (_ <- test_vm_creation_timing ;; mret tt)
   else mret tt)%m.


End Builtins.

End Abstract.

(** ** Vocabulary for the statements *)

(** The readings that truncate to the whole second [n]: the second
    starting at [n] from the epoch on, the one ending at [n] before it. *)
Definition in_second (n : Z) (t : Q) : Prop :=
  ((0 <= n)%Z /\ inject_Z n <= t /\ t < inject_Z (n + 1)) \/
  ((n <= 0)%Z /\ inject_Z (n - 1) < t /\ t <= inject_Z n).

(** The chunks a complete run writes, one per [print]. *)
Definition header : string :=
  "=== DEBUGGING VM CREATION AND ROOT VOLUME TIMING ===" ++ nl.

Definition request_line (now : Q) : string :=
  "1. Creating test VM with request: " ++ json.dumps (test_vm_request now) 2 ++ nl.

Definition steps : list string :=
  [ "  Step 1: VM creation submitted to CloudStack" ++ nl;
    "  Step 2: CloudStack returns job ID immediately" ++ nl;
    "  Step 3: WaitForAsyncJob waits for job completion" ++ nl;
    "  Step 4: waitForVMFullyProvisioned waits for root volume" ++ nl;
    "  Step 5: VM operations proceed..." ++ nl ].

Definition closing_warning : list string :=
  [ "ISSUE: If Step 4 times out or fails to detect root volume," ++ nl;
    "       the subsequent root volume deletion will fail!" ++ nl ].

Definition narrative : list string :=
  [ "2. Monitoring VM creation timing..." ++ nl;
    "RACE CONDITION SCENARIO:" ++ nl ]
  ++ steps ++ [ nl ] ++ closing_warning.

(** The text around the job identifier in the printed request. *)
Definition quoted (s : string) : string := String dquote (s ++ String dquote "").

Definition request_head : string :=
  "1. Creating test VM with request: {" ++ nl
  ++ "  " ++ quoted "vm_id" ++ ": " ++ quoted "debug-test-vm-001" ++ "," ++ nl
  ++ "  " ++ quoted "vm_name" ++ ": " ++ quoted "debug-test-vm-001" ++ "," ++ nl
  ++ "  " ++ quoted "failover_job_id" ++ ": " ++ String dquote "".

Definition request_tail : string := String dquote "" ++ nl ++ "}" ++ nl.

(** The effects of a complete call of [test_vm_creation_timing]. *)
Definition function_events (now : Q) : list event :=
  EvStdout header :: EvClock :: EvStdout (request_line now) :: map EvStdout narrative.

(** The modules the file imports, in order. *)
Definition imports : list string := ["requests"; "json"; "time"; "sys"].

(** Attempting a list of effects from the [n]-th write on: the error, if
    a write fails, and the effects that happened before it. *)
Fixpoint perform (w : World) (n : nat) (evs : list event) : option exn * list event :=
  match evs with
  | [] => (None, [])
  | EvStdout text :: evs' =>
      if stdout_ok w n
      then let (r, done) := perform w (S n) evs' in (r, EvStdout text :: done)
      else (Some OSError, [])
  | e :: evs' => let (r, done) := perform w n evs' in (r, e :: done)
  end.

(** Loading a list of modules: the first one missing, if any, and the
    loads that happened before it. *)
Fixpoint load (w : World) (names : list string) : option string * list event :=
  match names with
  | [] => (None, [])
  | name :: names' =>
      if installed w name
      then let (r, done) := load w names' in (r, EvImport name :: done)
      else (Some name, [])
  end.

Definition outcome {A : Type} (a : A) (r : option exn) : result A :=
  match r with
  | None => Ok a
  | Some e => Raise e
  end.

Definition extend (s : State) (evs : list event) : State :=
  {| globals := globals s; trace := trace s ++ evs |}.

(** [realises w m a evs]: in world [w], from any state, [m] attempts the
    effects [evs] in order; it returns [a] if all of them succeed and
    stops at the first write that fails. *)
Definition realises {A : Type} (w : World) (m : Py A) (a : A) (evs : list event) : Prop :=
  forall s,
    m w s = (outcome a (fst (perform w (writes s) evs)),
             extend s (snd (perform w (writes s) evs))).

(** Normal conditions. *)
Definition modules_available (w : World) : Prop :=
  forallb (installed w) imports = true.

Definition stdout_writable (w : World) : Prop :=
  forall n, stdout_ok w n = true.

(** What a run printed, chunk by chunk, and its part after the header
    and the request. *)
Definition printed (s : State) : list string := written (trace s).

Definition narrative_printed (s : State) : list string := skipn 2 (printed s).

Definition is_network (e : event) : bool :=
  match e with EvConnect _ => true | _ => false end.

Definition is_clock (e : event) : bool :=
  match e with EvClock => true | _ => false end.

(** Input and output: data leaving or entering the process.  Loading a
    module reads its files and runs its top-level code, which may do
    more (importing [requests] makes [urllib3] try a socket to see
    whether IPv6 is there); reading the clock moves no data. *)
Definition is_io (e : event) : bool :=
  match e with
  | EvImport _ | EvStdout _ | EvConnect _ => true
  | EvClock => false
  end.

(** The chunks of a complete run, in order. *)
Definition complete_output (now : Q) : list string :=
  header :: request_line now :: narrative.

(** Printable ASCII, or the line terminator. *)
Definition plain_char (c : ascii) : bool :=
  let n := N_of_ascii c in
  (((32 <=? n) && (n <=? 126)) || (n =? 10))%N.

Definition not_dquote (c : ascii) : bool := negb (N_of_ascii c =? 34)%N.

Fixpoint string_forallb (p : ascii -> bool) (s : string) : bool :=
  match s with
  | EmptyString => true
  | String c s' => p c && string_forallb p s'
  end.

(** The texts handed to [print], in order: [complete_output] without
    the line terminators. *)
Definition output_texts (now : Q) : list string :=
  [ "=== DEBUGGING VM CREATION AND ROOT VOLUME TIMING ===";
    "1. Creating test VM with request: " ++ json.dumps (test_vm_request now) 2;
    "2. Monitoring VM creation timing...";
    "RACE CONDITION SCENARIO:";
    "  Step 1: VM creation submitted to CloudStack";
    "  Step 2: CloudStack returns job ID immediately";
    "  Step 3: WaitForAsyncJob waits for job completion";
    "  Step 4: waitForVMFullyProvisioned waits for root volume";
    "  Step 5: VM operations proceed...";
    "";
    "ISSUE: If Step 4 times out or fails to detect root volume,";
    "       the subsequent root volume deletion will fail!" ].


(** The run gets as far as the request: the modules are there and the
    first two calls of [print] go through. *)
Definition reaches_request (w : World) : Prop :=
  modules_available w /\ stdout_ok w 0 = true /\ stdout_ok w 1 = true.

(** A system clock gives, at each instant of real time, the reading
    that [time.time()] returns.  Nothing makes it monotone: it can be
    set.  This one is put back by an hour at instant 5. *)
Definition clock_set_back (instant : Q) : Q :=
  if Qle_bool 5 instant then 1700000000 + instant - 3600 else 1700000000 + instant.

(** An invocation at [instant] under the system clock [wall], in an
    otherwise normal world. *)
Definition invocation_at (wall : Q -> Q) (instant : Q) : World :=
  {| clock := wall instant;
     argv := ["debug_vm_creation.py"];
     environ := [];
     installed := fun _ => true;
     stdout_ok := fun _ => true |}.

(** ** Sample builtins: a block-buffered standard output on a device
    that takes no data.  [print] only fills the buffer, which is the
    state; the flush at shutdown fails. *)






(** ** Sample worlds *)

Definition w_normal : World :=
  {| clock := 17000000005 # 10;
     argv := ["debug_vm_creation.py"];
     environ := [];
     installed := fun _ => true;
     stdout_ok := fun _ => true |}.

(** The same instant written as another fraction, other arguments and
    another environment. *)
Definition w_other_env : World :=
  {| clock := 34000000010 # 20;
     argv := ["debug_vm_creation.py"; "--verbose"];
     environ := [("OMA_API_BASE", "http://example.invalid:9090")];
     installed := fun _ => true;
     stdout_ok := fun _ => true |}.

(** A quarter of a second later, within the same second. *)
Definition w_same_second : World :=
  {| clock := 170000000075 # 100;
     argv := ["debug_vm_creation.py"];
     environ := [];
     installed := fun _ => true;
     stdout_ok := fun _ => true |}.

Definition w_later : World :=
  {| clock := 1700000007 # 1;
     argv := ["debug_vm_creation.py"];
     environ := [];
     installed := fun _ => true;
     stdout_ok := fun _ => true |}.

(** The third-party [requests] package is not installed. *)
Definition w_no_requests : World :=
  {| clock := 17000000005 # 10;
     argv := ["debug_vm_creation.py"];
     environ := [];
     installed := fun name => negb (String.eqb name "requests");
     stdout_ok := fun _ => true |}.

(** Standard output refuses every write. *)
Definition w_stdout_closed : World :=
  {| clock := 17000000005 # 10;
     argv := ["debug_vm_creation.py"];
     environ := [];
     installed := fun _ => true;
     stdout_ok := fun _ => false |}.

(** Standard output breaks after the fifth write. *)
Definition w_stdout_breaks : World :=
  {| clock := 17000000005 # 10;
     argv := ["debug_vm_creation.py"];
     environ := [];
     installed := fun _ => true;
     stdout_ok := fun n => Nat.ltb n 5 |}.


(** * Properties of the builtins *)

Section Truncation.

Variables x y : Q.

(** Both quotients over the common denominator. *)
Lemma py_int_common_den :
  py_int x = Z.quot (Qnum x * Zpos (Qden y)) (Zpos (Qden x) * Zpos (Qden y)).
Proof.
  unfold py_int. rewrite Z.quot_mul_cancel_r; [reflexivity | lia | lia].
Qed.

End Truncation.

(** [int] is monotone on floats. *)
Lemma py_int_le_mono (x y : Q) : x <= y -> (py_int x <= py_int y)%Z.
Proof.
  intros Hle. unfold Qle in Hle.
  rewrite (py_int_common_den x y), (py_int_common_den y x).
  rewrite (Z.mul_comm (Zpos (Qden y)) (Zpos (Qden x))).
  apply Z.quot_le_mono; [lia | exact Hle].
Qed.

(** [int] does not see how the rational is written. *)
Lemma py_int_Qeq (x y : Q) : x == y -> py_int x = py_int y.
Proof.
  intros Heq. apply Z.le_antisymm; apply py_int_le_mono; rewrite Heq; apply Qle_refl.
Qed.

(** From the epoch on, truncation is the floor: the whole seconds. *)
Lemma py_int_floor (x : Q) : 0 <= x -> py_int x = Qfloor x.
Proof.
  destruct x as [a b]. unfold Qle, py_int, Qfloor. simpl. intros Ha.
  apply Z.quot_div_nonneg; lia.
Qed.

Lemma py_int_in_second (n : Z) (t : Q) : in_second n t -> py_int t = n.
Proof.
  destruct t as [a b]. unfold in_second, py_int, Qle, Qlt. simpl.
  intros [(Hn & Hlo & Hhi) | (Hn & Hlo & Hhi)].
  - symmetry. apply Z.quot_unique with (r := (a - Zpos b * n)%Z); nia.
  - rewrite <- (Z.opp_involutive a), Z.quot_opp_l by lia.
    apply Z.opp_inj. rewrite Z.opp_involutive. symmetry.
    apply Z.quot_unique with (r := (- a - Zpos b * - n)%Z); nia.
Qed.

Lemma in_second_py_int (t : Q) : in_second (py_int t) t.
Proof.
  destruct t as [a b]. unfold in_second, py_int, Qle, Qlt. simpl.
  assert (Hb : (0 < Zpos b)%Z) by lia.
  destruct (Z.le_ge_cases 0 a) as [Ha | Ha].
  - left. pose proof (Z.quot_pos a (Zpos b) Ha Hb).
    pose proof (Z.mul_quot_le a (Zpos b) Ha).
    pose proof (Z.mul_succ_quot_gt a (Zpos b) Ha Hb).
    nia.
  - right. 
    pose proof (Z.mul_quot_ge a (Zpos b) Ha).
    pose proof (Z.mul_pred_quot_lt a (Zpos b) Ha Hb).
    assert ((a ÷ Zpos b <= 0)%Z).
    { rewrite <- (Z.opp_involutive a), Z.quot_opp_l by lia.
      pose proof (Z.quot_pos (- a) (Zpos b)). lia. }
    nia.
Qed.

(** [str] writes a numeral that reads back as the same integer. *)
Lemma parse_int_py_str (n : Z) : parse_int (py_str n) = Some n.
Proof.
  unfold parse_int, py_str.
  rewrite NilZero.isi.
  - simpl. now rewrite DecimalZ.of_to.
  - destruct n; simpl; try discriminate.
    intros H. injection H as H. revert H. apply DecimalPos.Unsigned.to_uint_nonnil.
  - destruct n; simpl; try discriminate.
    intros H. injection H as H. revert H. apply DecimalPos.Unsigned.to_uint_nonnil.
Qed.

Lemma py_str_inj (n m : Z) : py_str n = py_str m -> n = m.
Proof.
  intros H. apply (f_equal parse_int) in H.
  rewrite !parse_int_py_str in H. now injection H.
Qed.

(** Decimal digits and the minus sign need no escaping in JSON. *)
Lemma escape_digits (d : Decimal.uint) :
  json.escape (NilEmpty.string_of_uint d) = NilEmpty.string_of_uint d.
Proof.
  induction d; simpl; try reflexivity;
    unfold json.escape_char; simpl; now rewrite IHd.
Qed.

Lemma escape_py_str (n : Z) : json.escape (py_str n) = py_str n.
Proof.
  unfold py_str.
  destruct (Z.to_int n) as [d | d]; simpl.
  - destruct d; try reflexivity; apply (escape_digits (_ _)).
  - f_equal.
    destruct d; try reflexivity; apply (escape_digits (_ _)).
Qed.

Lemma writes_log_stdout (text : string) (s : State) :
  writes (log (EvStdout text) s) = S (writes s).
Proof.
  unfold writes, log. simpl. rewrite filter_app, length_app. simpl. lia.
Qed.

Lemma writes_log_clock (s : State) : writes (log EvClock s) = writes s.
Proof.
  unfold writes, log. simpl. rewrite filter_app, length_app. simpl. lia.
Qed.

Lemma extend_nil (s : State) : extend s [] = s.
Proof. destruct s. unfold extend. simpl. now rewrite app_nil_r. Qed.

Lemma extend_log (s : State) (e : event) (evs : list event) :
  extend (log e s) evs = extend s (e :: evs).
Proof. unfold extend, log. simpl. now rewrite <- app_assoc. Qed.


Section Realises.

Context {A : Type} (w : World) (a : A).

Lemma realises_ret : realises w (ret a) a [].
Proof. intros s. unfold ret. simpl. now rewrite extend_nil. Qed.

Lemma realises_print (text : string) (k : Py A) (evs : list event) :
  realises w k a evs ->
  realises w (print text ;; k) a (EvStdout (text ++ nl) :: evs).
Proof.
  intros Hk s. unfold bind, print. simpl.
  destruct (stdout_ok w (writes s)).
  - rewrite Hk, writes_log_stdout, extend_log.
    now destruct (perform w (S (writes s)) evs).
  - simpl. now rewrite extend_nil.
Qed.

Lemma realises_time (k : Q -> Py A) (evs : list event) :
  realises w (k (clock w)) a evs ->
  realises w (now <- time.time ;; k now) a (EvClock :: evs).
Proof.
  intros Hk s. unfold bind, time.time. simpl.
  rewrite Hk, writes_log_clock, extend_log.
  now destruct (perform w (writes s) evs).
Qed.

End Realises.

Lemma test_vm_creation_timing_realises (w : World) :
  realises w test_vm_creation_timing true (function_events (clock w)).
Proof.
  unfold test_vm_creation_timing, function_events.
  apply realises_print, realises_time.
  repeat apply realises_print.
  apply realises_ret.
Qed.

(** * Attempting effects *)

Section Perform.

Variable w : World.

Lemma perform_ok (evs : list event) :
  stdout_writable w -> forall n, perform w n evs = (None, evs).
Proof.
  intros Hout. induction evs as [| e evs IH]; intros n; simpl.
  - reflexivity.
  - destruct e; rewrite ?Hout, IH; reflexivity.
Qed.

(** What happened is a prefix of what was attempted. *)
Lemma perform_prefix (evs : list event) :
  forall n, exists rest, evs = (snd (perform w n evs) ++ rest)%list.
Proof.
  induction evs as [| e evs IH]; intros n; simpl.
  - now exists [].
  - destruct e.
    + destruct (IH n) as [rest Hrest].
      exists rest. destruct (perform w n evs). simpl in *. now f_equal.
    + destruct (IH n) as [rest Hrest].
      exists rest. destruct (perform w n evs). simpl in *. now f_equal.
    + destruct (stdout_ok w n).
      * destruct (IH (S n)) as [rest Hrest].
        exists rest. destruct (perform w (S n) evs). simpl in *. now f_equal.
      * now exists (EvStdout text :: evs).
    + destruct (IH n) as [rest Hrest].
      exists rest. destruct (perform w n evs). simpl in *. now f_equal.
Qed.

(** Without an error, everything happened. *)
Lemma perform_complete (evs : list event) :
  forall n, fst (perform w n evs) = None -> snd (perform w n evs) = evs.
Proof.
  induction evs as [| e evs IH]; intros n; simpl.
  - reflexivity.
  - destruct e.
    + specialize (IH n). destruct (perform w n evs). simpl in *.
      intros H. now rewrite IH.
    + specialize (IH n). destruct (perform w n evs). simpl in *.
      intros H. now rewrite IH.
    + destruct (stdout_ok w n); [| discriminate].
      specialize (IH (S n)). destruct (perform w (S n) evs). simpl in *.
      intros H. now rewrite IH.
    + specialize (IH n). destruct (perform w n evs). simpl in *.
      intros H. now rewrite IH.
Qed.

(** The only error is a failed write. *)
Lemma perform_exn (evs : list event) :
  forall n e, fst (perform w n evs) = Some e -> e = OSError.
Proof.
  induction evs as [| ev evs IH]; intros n e; simpl.
  - discriminate.
  - destruct ev.
    + specialize (IH n e). now destruct (perform w n evs).
    + specialize (IH n e). now destruct (perform w n evs).
    + destruct (stdout_ok w n).
      * specialize (IH (S n) e). now destruct (perform w (S n) evs).
      * simpl. now intros [= <-].
    + specialize (IH n e). now destruct (perform w n evs).
Qed.

(** An error arises exactly when one of the writes attempted fails. *)
Lemma perform_raises_iff (evs : list event) :
  forall n,
    (exists e, fst (perform w n evs) = Some e) <->
    (exists k, (k < length (written evs))%nat /\ stdout_ok w (n + k) = false).
Proof.
  induction evs as [| ev evs IH]; intros n; simpl.
  - split; [intros [e He]; discriminate | intros (k & Hk & _); lia].
  - destruct ev; simpl.
    + rewrite <- IH. now destruct (perform w n evs).
    + rewrite <- IH. now destruct (perform w n evs).
    + destruct (stdout_ok w n) eqn:Hn.
      * transitivity (exists e, fst (perform w (S n) evs) = Some e).
        { now destruct (perform w (S n) evs). }
        rewrite IH. split.
        -- intros (k & Hk & Hf). exists (S k). split; [lia |].
           now rewrite Nat.add_succ_r.
        -- intros (k & Hk & Hf). destruct k as [| k].
           ++ rewrite Nat.add_0_r in Hf. congruence.
           ++ exists k. split; [lia |]. now rewrite Nat.add_succ_r in Hf.
      * split.
        -- intros _. exists 0%nat. split; [lia |]. now rewrite Nat.add_0_r.
        -- intros _. now exists OSError.
    + rewrite <- IH. now destruct (perform w n evs).
Qed.

End Perform.

(** Attempts depend on the world through the write outcomes only. *)
Lemma perform_ext (w1 w2 : World) (evs : list event) :
  (forall n, stdout_ok w1 n = stdout_ok w2 n) ->
  forall n, perform w1 n evs = perform w2 n evs.
Proof.
  intros Hout. induction evs as [| e evs IH]; intros n; simpl.
  - reflexivity.
  - destruct e; rewrite ?Hout, ?IH; reflexivity.
Qed.

Lemma load_ext (w1 w2 : World) (names : list string) :
  (forall name, installed w1 name = installed w2 name) ->
  load w1 names = load w2 names.
Proof.
  intros Hmods. induction names as [| name names IH]; simpl.
  - reflexivity.
  - now rewrite Hmods, IH.
Qed.

Lemma load_available (w : World) (names : list string) :
  forallb (installed w) names = true -> load w names = (None, map EvImport names).
Proof.
  induction names as [| name names IH]; simpl.
  - reflexivity.
  - intros H. apply andb_true_iff in H as [Hname Hrest].
    now rewrite Hname, IH.
Qed.

(** Loading writes nothing, reads no clock and opens no socket. *)
Lemma load_imports_only (w : World) (names : list string) :
  Forall (fun e => exists name, e = EvImport name) (snd (load w names)).
Proof.
  induction names as [| name names IH]; simpl.
  - constructor.
  - destruct (installed w name); [| constructor].
    destruct (load w names). simpl in *. constructor; [now exists name | exact IH].
Qed.

(** A missing module is one of those asked for, and was not installed. *)
Lemma load_missing (w : World) (names : list string) (name : string) :
  fst (load w names) = Some name -> In name names /\ installed w name = false.
Proof.
  induction names as [| name' names IH]; simpl.
  - discriminate.
  - destruct (installed w name') eqn:Hname'.
    + destruct (load w names). simpl in *. intros H. destruct (IH H). auto.
    + simpl. intros [= <-]. auto.
Qed.

(** * The script as a whole *)

Lemma string_app_assoc (a b c : string) : (a ++ b) ++ c = a ++ (b ++ c).
Proof. induction a as [| x a IH]; simpl; [reflexivity | now rewrite IH]. Qed.

Lemma escape_app (a b : string) :
  json.escape (a ++ b) = json.escape a ++ json.escape b.
Proof.
  induction a as [| c a IH]; simpl.
  - reflexivity.
  - now rewrite IH, string_app_assoc.
Qed.

Lemma request_line_text (now : Q) :
  request_line now =
  request_head ++ "debug-test-" ++ py_str (py_int now) ++ request_tail.
Proof.
  unfold request_line, request_head, request_tail, test_vm_request, json.dumps.
  unfold json.encode_str, map, snd, fst.
  rewrite escape_app, escape_py_str.
  cbn -[py_str py_int].
  rewrite !string_app_assoc. reflexivity.
Qed.

Lemma function_events_Qeq (t1 t2 : Q) :
  t1 == t2 -> function_events t1 = function_events t2.
Proof.
  intros Heq. unfold function_events, request_line, test_vm_request.
  now rewrite (py_int_Qeq t1 t2 Heq).
Qed.

(** A call of the function, from any state. *)
Lemma test_vm_creation_timing_normal (w : World) (s : State) :
  stdout_writable w ->
  test_vm_creation_timing w s = (Ok true, extend s (function_events (clock w))).
Proof.
  intros Hout. rewrite test_vm_creation_timing_realises.
  now rewrite perform_ok.
Qed.

(** Running the file: the imports, then the binding of the constant,
    then the call under the [__main__] guard. *)
Lemma run_script_spec (base : string) (w : World) :
  run_script base w =
  match load w imports with
  | (Some name, done) =>
      (Raise (ModuleNotFoundError name), {| globals := []; trace := done |})
  | (None, done) =>
      (outcome tt (fst (perform w 0 (function_events (clock w)))),
       {| globals := [("OMA_API_BASE", base)];
          trace := done ++ snd (perform w 0 (function_events (clock w))) |})
  end.
Proof.
  unfold run_script, module_body, imports, load.
  unfold bind at 1, import at 1.
  destruct (installed w "requests"); [| reflexivity].
  unfold bind at 1, import at 1.
  destruct (installed w "json"); [| reflexivity].
  unfold bind at 1, import at 1.
  destruct (installed w "time"); [| reflexivity].
  unfold bind at 1, import at 1.
  destruct (installed w "sys"); [| reflexivity].
  unfold bind, assign, ret.
  rewrite String.eqb_refl.
  rewrite test_vm_creation_timing_realises.
  change (writes _) with 0%nat.
  now destruct (perform w 0 (function_events (clock w))) as [[e |] done].
Qed.

Lemma run_script_normal (base : string) (w : World) :
  modules_available w -> stdout_writable w ->
  run_script base w =
  (Ok tt, {| globals := [("OMA_API_BASE", base)];
             trace := map EvImport imports ++ function_events (clock w) |}).
Proof.
  intros Hmods Hout.
  rewrite run_script_spec, (load_available w imports Hmods).
  now rewrite perform_ok.
Qed.

(** What the script prints is always a beginning of the full text. *)
Lemma written_app (tr1 tr2 : list event) :
  written (tr1 ++ tr2) = (written tr1 ++ written tr2)%list.
Proof.
  induction tr1 as [| e tr1 IH]; simpl.
  - reflexivity.
  - destruct e; simpl; now rewrite ?IH.
Qed.

Lemma written_imports (w : World) (names : list string) :
  written (snd (load w names)) = [].
Proof.
  pose proof (load_imports_only w names) as H.
  induction H as [| e tr [name ->] _ IH]; simpl; auto.
Qed.

Lemma printed_prefix (base : string) (w : World) :
  exists rest,
    (header :: request_line (clock w) :: narrative
     = printed (snd (run_script base w)) ++ rest)%list.
Proof.
  rewrite run_script_spec. unfold printed.
  pose proof (written_imports w imports) as Himp.
  destruct (load w imports) as [[name |] done]; cbn [snd trace] in *.
  - rewrite Himp. eexists. reflexivity.
  - rewrite written_app, Himp.
    destruct (perform_prefix w (function_events (clock w)) 0) as [rest Hrest].
    exists (written rest).
    change (header :: request_line (clock w) :: narrative)
      with (written (function_events (clock w))).
    rewrite Hrest at 1. now rewrite written_app.
Qed.

(** The call of the library that would open a socket does leave a
    network event: the absence of such events is a real restriction. *)
Lemma requests_get_connects (url : string) (w : World) :
  existsb is_network (trace (snd (requests.get url w initial_state))) = true.
Proof. reflexivity. Qed.

Lemma load_prefix (w : World) (names : list string) :
  exists rest, map EvImport names = (snd (load w names) ++ rest)%list.
Proof.
  induction names as [| name names [rest IH]]; simpl.
  - now exists [].
  - destruct (installed w name).
    + exists rest. destruct (load w names). simpl in *. now f_equal.
    + now exists (EvImport name :: map EvImport names).
Qed.

Lemma load_incl (w : World) (names : list string) :
  incl (snd (load w names)) (map EvImport names).
Proof.
  destruct (load_prefix w names) as [rest H].
  intros e He. rewrite H. apply in_or_app. now left.
Qed.

Lemma perform_incl (w : World) (n : nat) (evs : list event) :
  incl (snd (perform w n evs)) evs.
Proof.
  destruct (perform_prefix w evs n) as [rest H].
  intros e He. rewrite H. apply in_or_app. now left.
Qed.

(** Every effect of a run is one of the effects of the complete run. *)
Lemma trace_incl (base : string) (w : World) :
  incl (trace (snd (run_script base w)))
       (map EvImport imports ++ function_events (clock w)).
Proof.
  rewrite run_script_spec.
  pose proof (load_incl w imports) as H1.
  pose proof (perform_incl w 0 (function_events (clock w))) as H2.
  destruct (load w imports) as [[name |] done]; cbn [snd trace] in *.
  - now apply incl_appl.
  - now apply incl_app_app.
Qed.

(** The descriptor tells the whole seconds apart, and nothing finer. *)
Lemma test_vm_request_eq_iff (t1 t2 : Q) :
  test_vm_request t1 = test_vm_request t2 <-> py_int t1 = py_int t2.
Proof.
  unfold test_vm_request. split.
  - intros H. injection H as H. now apply py_str_inj.
  - now intros ->.
Qed.

(** A run that gets as far as the request has it as its second chunk. *)
Lemma run_reaches_request (base : string) (w : World) :
  reaches_request w ->
  nth_error (printed (snd (run_script base w))) 1 = Some (request_line (clock w)).
Proof.
  intros (Hmods & H0 & H1).
  rewrite run_script_spec, (load_available w imports Hmods).
  unfold printed. cbn [snd trace]. rewrite written_app.
  unfold function_events. cbn [perform]. rewrite H0, H1.
  destruct (perform w 2 (map EvStdout narrative)) as [r done].
  reflexivity.
Qed.

Lemma load_none_complete (w : World) (names : list string) :
  fst (load w names) = None -> snd (load w names) = map EvImport names.
Proof.
  induction names as [| name names IH]; simpl.
  - reflexivity.
  - destruct (installed w name); [| discriminate].
    destruct (load w names). simpl in *. intros H. now rewrite IH.
Qed.

(** The effects of a run are a beginning of those of the complete run:
    the four loads, the header, the clock read, the eleven other writes. *)
Lemma trace_prefix (base : string) (w : World) :
  exists rest,
    (map EvImport imports ++ function_events (clock w)
     = trace (snd (run_script base w)) ++ rest)%list.
Proof.
  rewrite run_script_spec.
  destruct (load_prefix w imports) as [rest1 H1].
  destruct (perform_prefix w (function_events (clock w)) 0) as [rest2 H2].
  pose proof (load_none_complete w imports) as Hall.
  destruct (load w imports) as [[name |] done]; cbn [fst snd trace] in *.
  - exists (rest1 ++ function_events (clock w))%list.
    now rewrite H1, <- app_assoc.
  - exists rest2. rewrite (Hall eq_refl), <- app_assoc. f_equal. exact H2.
Qed.

(** ** The script over any builtins *)

(** The model above is the instance at its own primitives. *)
Lemma test_vm_creation_timing_instance (w : World) (s : State) :
  test_vm_creation_timing w s
  = Abstract.test_vm_creation_timing (fun text => print text w) (time.time w) s.
Proof. reflexivity. Qed.

Lemma module_body_instance (base name : string) (w : World) (s : State) :
  module_body base name w s
  = Abstract.module_body (fun module => import module w)
      (fun target value => assign target value w)
      (fun text => print text w) (time.time w) base name s.
Proof.
  unfold module_body, Abstract.module_body, bind, mbind.
  destruct (import "requests" w s) as [[[] | e] s1]; [| reflexivity].
  destruct (import "json" w s1) as [[[] | e] s2]; [| reflexivity].
  destruct (import "time" w s2) as [[[] | e] s3]; [| reflexivity].
  destruct (import "sys" w s3) as [[[] | e] s4]; [| reflexivity].
  destruct (assign "OMA_API_BASE" base w s4) as [[[] | e] s5]; [| reflexivity].
  destruct (String.eqb name "__main__"); reflexivity.
Qed.

Lemma output_texts_complete (now : Q) :
  complete_output now = map (fun text => text ++ nl) (output_texts now).
Proof. reflexivity. Qed.

Section AbstractCalls.

Context {S : Type}.
Variable print : string -> M S unit.
Variable time_time : M S Q.





End AbstractCalls.

Section AbstractProcess.

Context {S : Type}.
Variable import : string -> M S unit.
Variable assign : string -> string -> M S unit.
Variable print : string -> M S unit.
Variable time_time : M S Q.
Variable now : Q.
Hypothesis Himport : forall name s0, exists s1, import name s0 = (Ok tt, s1).
Hypothesis Hassign : forall name value s0, exists s1, assign name value s0 = (Ok tt, s1).
Hypothesis Htime : forall s0, exists s1, time_time s0 = (Ok now, s1).





End AbstractProcess.

(** * The claims *)

(** C1, as stated, fails: without the [requests] package the process
    ends with status 1, and when standard output refuses the first
    write the function raises [OSError] instead of returning [True] and
    the process does not end with status 0. *)
Lemma always_succeeds_counterexample :
  exit_status (fst (main w_no_requests)) = 1%Z /\
  fst (test_vm_creation_timing w_stdout_closed initial_state) = Raise OSError /\
  exit_status (fst (main w_stdout_closed)) <> 0%Z.
Proof. repeat split. discriminate. Qed.

(** C1, amended: in every invocation in which the imported modules are
    available and no write to standard output fails,
    [test_vm_creation_timing] ends and returns [True], and the process
    run through the [__main__] guard ends with status 0, whatever the
    function returned. *)
Theorem succeeds_under_normal_conditions (w : World) (s : State)
  (Hmods : modules_available w) (Hout : stdout_writable w) :
  fst (test_vm_creation_timing w s) = Ok true /\
  fst (main w) = Ok tt /\
  exit_status (fst (main w)) = 0%Z.
Proof.
  unfold main.
  rewrite (test_vm_creation_timing_normal w s Hout).
  rewrite (run_script_normal OMA_API_BASE w Hmods Hout).
  repeat split.
Qed.

(** A normal world: everything installed, every write accepted. *)
Lemma succeeds_under_normal_conditions_witness :
  fst (test_vm_creation_timing w_normal initial_state) = Ok true /\
  fst (main w_normal) = Ok tt /\
  exit_status (fst (main w_normal)) = 0%Z.
Proof.
  apply (succeeds_under_normal_conditions w_normal initial_state).
  - reflexivity.
  - intros n. reflexivity.
Defined.

(** C2, as stated, fails: of two invocations the first of which happens
    before the second, the first can print the larger number.  The
    system clock is put back by an hour between instants 1 and 6; the
    invocation at instant 1 prints 1700000001, the one at instant 6
    prints 1699996406. *)
Lemma earlier_invocation_larger_number_counterexample :
  1 < 6 /\
  nth_error (printed (snd (main (invocation_at clock_set_back 1)))) 1
  = Some (request_head ++ "debug-test-" ++ py_str 1700000001 ++ request_tail) /\
  nth_error (printed (snd (main (invocation_at clock_set_back 6)))) 1
  = Some (request_head ++ "debug-test-" ++ py_str 1699996406 ++ request_tail) /\
  ~ (1700000001 <= 1699996406)%Z.
Proof.
  split; [reflexivity |]. split; [reflexivity |]. split; [reflexivity |]. lia.
Qed.

(** C2, amended: every run that gets as far as printing the request
    prints, as its second chunk, the job identifier made of the literal
    [debug-test-] and the decimal numeral of [int(time.time())], a
    numeral that reads back as that integer; and of two such
    invocations, the first with a clock reading no later than the
    second's, the first prints a number less than or equal to the
    second's. *)
Theorem failover_job_id_printed_and_ordered (base : string) (w1 w2 : World)
  (Hreach1 : reaches_request w1) (Hreach2 : reaches_request w2)
  (Hclock : clock w1 <= clock w2) :
  nth_error (printed (snd (run_script base w1))) 1
  = Some (request_head ++ "debug-test-" ++ py_str (py_int (clock w1)) ++ request_tail) /\
  nth_error (printed (snd (run_script base w2))) 1
  = Some (request_head ++ "debug-test-" ++ py_str (py_int (clock w2)) ++ request_tail) /\
  parse_int (py_str (py_int (clock w1))) = Some (py_int (clock w1)) /\
  parse_int (py_str (py_int (clock w2))) = Some (py_int (clock w2)) /\
  (py_int (clock w1) <= py_int (clock w2))%Z.
Proof.
  repeat split.
  - rewrite (run_reaches_request base w1 Hreach1). f_equal. apply request_line_text.
  - rewrite (run_reaches_request base w2 Hreach2). f_equal. apply request_line_text.
  - apply parse_int_py_str.
  - apply parse_int_py_str.
  - now apply py_int_le_mono.
Qed.

(** Two normal runs seven seconds apart on a clock left alone. *)
Lemma failover_job_id_printed_and_ordered_witness :
  nth_error (printed (snd (run_script OMA_API_BASE w_normal))) 1
  = Some (request_head ++ "debug-test-" ++ py_str 1700000000 ++ request_tail) /\
  nth_error (printed (snd (run_script OMA_API_BASE w_later))) 1
  = Some (request_head ++ "debug-test-" ++ py_str 1700000007 ++ request_tail) /\
  parse_int (py_str 1700000000) = Some 1700000000%Z /\
  parse_int (py_str 1700000007) = Some 1700000007%Z /\
  (1700000000 <= 1700000007)%Z.
Proof.
  apply (failover_job_id_printed_and_ordered OMA_API_BASE w_normal w_later).
  - repeat split.
  - repeat split.
  - unfold Qle. simpl. lia.
Defined.

(** C3, as stated, fails: a normal run loads [requests], an input that
    is no write to standard output (the files of the package are read
    and its top-level code runs). *)
Lemma only_stdout_io_counterexample :
  In (EvImport "requests") (trace (snd (main w_normal))) /\
  is_io (EvImport "requests") = true /\
  is_stdout (EvImport "requests") = false /\
  forallb (fun e => implb (is_io e) (is_stdout e)) (trace (snd (main w_normal))) = false.
Proof. repeat split. left. reflexivity. Qed.

(** C3, amended: in every execution the statements of the script do no
    input or output other than writing to standard output, and make no
    network call although [OMA_API_BASE] names an external API: the
    effects of a run are a beginning of the four module loads followed
    by the header, the clock read and the eleven other writes; none is
    a connection; and what a call of the function adds, from any state,
    holds no input or output but writes to standard output.  The only
    other input of a run is the loading of the four modules. *)
Theorem statements_only_write_stdout (base : string) (w : World) (s : State) :
  (exists rest,
      (map EvImport imports ++ function_events (clock w)
       = trace (snd (run_script base w)) ++ rest)%list) /\
  forallb (fun e => negb (is_network e)) (trace (snd (run_script base w))) = true /\
  (exists evs,
      trace (snd (test_vm_creation_timing w s)) = (trace s ++ evs)%list /\
      forallb (fun e => implb (is_io e) (is_stdout e)) evs = true).
Proof.
  split; [apply trace_prefix |]. split.
  - apply forallb_forall. intros e He. apply (trace_incl base w) in He.
    simpl in He. intuition (subst; reflexivity).
  - exists (snd (perform w (writes s) (function_events (clock w)))).
    split; [now rewrite test_vm_creation_timing_realises |].
    apply forallb_forall. intros e He.
    apply (perform_incl w (writes s) (function_events (clock w))) in He.
    simpl in He. intuition (subst; reflexivity).
Qed.

(** C4, as stated, fails: a run without the [requests] package prints
    none of the narrative lines that a normal run prints. *)
Lemma narrative_identical_counterexample :
  narrative_printed (snd (main w_normal)) = narrative /\
  narrative_printed (snd (main w_no_requests)) = [] /\
  narrative_printed (snd (main w_normal)) <> narrative_printed (snd (main w_no_requests)).
Proof. repeat split. discriminate. Qed.

(** C4, amended: for every pair of runs in which the imported modules are
    available and no write to standard output fails, the narrative lines
    printed are the same, in the same order: the two headings, the five
    numbered steps, a blank line and the two lines of the closing
    warning. *)
Theorem narrative_fixed_under_normal_conditions
  (base1 base2 : string) (w1 w2 : World)
  (Hmods1 : modules_available w1) (Hout1 : stdout_writable w1)
  (Hmods2 : modules_available w2) (Hout2 : stdout_writable w2) :
  narrative_printed (snd (run_script base1 w1)) = narrative /\
  narrative_printed (snd (run_script base2 w2)) = narrative /\
  skipn 2 narrative = (steps ++ [nl] ++ closing_warning)%list.
Proof.
  rewrite (run_script_normal base1 w1 Hmods1 Hout1).
  rewrite (run_script_normal base2 w2 Hmods2 Hout2).
  repeat split.
Qed.

(** Two normal runs at different times. *)
Lemma narrative_fixed_under_normal_conditions_witness :
  narrative_printed (snd (run_script OMA_API_BASE w_normal)) = narrative /\
  narrative_printed (snd (run_script OMA_API_BASE w_later)) = narrative /\
  skipn 2 narrative = (steps ++ [nl] ++ closing_warning)%list.
Proof.
  apply (narrative_fixed_under_normal_conditions
           OMA_API_BASE OMA_API_BASE w_normal w_later).
  - reflexivity.
  - intros n. reflexivity.
  - reflexivity.
  - intros n. reflexivity.
Defined.

(** C5: two executions that differ only in the command line, the
    environment variables and the value bound to [OMA_API_BASE], with the
    same clock reading, write the same text to standard output and end
    the same way, and the function returns the same value. *)
Theorem independent_of_arguments_environment_and_base
  (base1 base2 : string) (w1 w2 : World)
  (Hclock : clock w1 == clock w2)
  (Hmods : forall name, installed w1 name = installed w2 name)
  (Hout : forall n, stdout_ok w1 n = stdout_ok w2 n) :
  stdout (snd (run_script base1 w1)) = stdout (snd (run_script base2 w2)) /\
  fst (run_script base1 w1) = fst (run_script base2 w2) /\
  exit_status (fst (run_script base1 w1)) = exit_status (fst (run_script base2 w2)) /\
  (forall s, fst (test_vm_creation_timing w1 s) = fst (test_vm_creation_timing w2 s)).
Proof.
  rewrite !run_script_spec.
  rewrite (load_ext w1 w2 imports Hmods).
  rewrite (function_events_Qeq _ _ Hclock).
  rewrite (perform_ext w1 w2 _ Hout).
  repeat split.
  - now destruct (load w2 imports) as [[name |] done].
  - now destruct (load w2 imports) as [[name |] done].
  - now destruct (load w2 imports) as [[name |] done].
  - intros s. rewrite !test_vm_creation_timing_realises.
    rewrite (function_events_Qeq _ _ Hclock).
    now rewrite (perform_ext w1 w2 _ Hout).
Qed.

(** Another command line, another environment, another base URL, and
    the same instant written as another fraction. *)
Lemma independent_of_arguments_environment_and_base_witness :
  stdout (snd (run_script OMA_API_BASE w_normal))
  = stdout (snd (run_script "http://example.invalid:9090" w_other_env)) /\
  fst (run_script OMA_API_BASE w_normal)
  = fst (run_script "http://example.invalid:9090" w_other_env) /\
  exit_status (fst (run_script OMA_API_BASE w_normal))
  = exit_status (fst (run_script "http://example.invalid:9090" w_other_env)) /\
  (forall s, fst (test_vm_creation_timing w_normal s)
             = fst (test_vm_creation_timing w_other_env s)).
Proof.
  apply (independent_of_arguments_environment_and_base
           OMA_API_BASE "http://example.invalid:9090" w_normal w_other_env).
  - unfold Qeq. simpl. reflexivity.
  - intros name. reflexivity.
  - intros n. reflexivity.
Defined.



(** C7, as stated, fails: a run without the [requests] package reads no
    clock, builds no descriptor and prints nothing. *)
Lemma descriptor_every_run_counterexample :
  filter is_clock (trace (snd (main w_no_requests))) = [] /\
  printed (snd (main w_no_requests)) = [] /\
  nth_error (printed (snd (main w_no_requests))) 1
  <> Some (request_line (clock w_no_requests)).
Proof. repeat split. discriminate. Qed.

(** C7, amended: every run in which the imported modules are available
    and no write to standard output fails reads the clock once and
    builds one descriptor of exactly three fields, two literals and the
    job identifier made of a literal and the time in whole seconds;
    its indented JSON text is printed once, as the second chunk; and
    nothing of it remains afterwards: the globals hold the constant
    only and the run yields no value. *)
Theorem request_descriptor_built_printed_discarded (base : string) (w : World)
  (Hmods : modules_available w) (Hout : stdout_writable w) :
  test_vm_request (clock w) =
    [ ("vm_id", "debug-test-vm-001");
      ("vm_name", "debug-test-vm-001");
      ("failover_job_id", "debug-test-" ++ py_str (py_int (clock w))) ] /\
  length (filter is_clock (trace (snd (run_script base w)))) = 1%nat /\
  printed (snd (run_script base w)) = header :: request_line (clock w) :: narrative /\
  request_line (clock w) =
    "1. Creating test VM with request: "
    ++ json.dumps (test_vm_request (clock w)) 2 ++ nl /\
  request_line (clock w) =
    request_head ++ "debug-test-" ++ py_str (py_int (clock w)) ++ request_tail /\
  globals (snd (run_script base w)) = [("OMA_API_BASE", base)] /\
  fst (run_script base w) = Ok tt.
Proof.
  rewrite (run_script_normal base w Hmods Hout).
  repeat split. apply request_line_text.
Qed.

(** The whole output of a normal run. *)
Lemma request_descriptor_built_printed_discarded_witness :
  printed (snd (run_script OMA_API_BASE w_normal))
  = header :: request_line (clock w_normal) :: narrative.
Proof.
  apply (request_descriptor_built_printed_discarded OMA_API_BASE w_normal).
  - reflexivity.
  - intros n. reflexivity.
Defined.

(** C8, as stated, fails: two executions that both read the clock, at
    the same value, need not behave alike.  On a standard output that
    is written through and breaks after five writes, the call raises
    having printed five chunks, while in a normal world it prints all
    twelve and returns [True]. *)
Lemma clock_only_nondeterminism_counterexample :
  clock w_normal == clock w_stdout_breaks /\
  In EvClock (trace (snd (test_vm_creation_timing w_normal initial_state))) /\
  In EvClock (trace (snd (test_vm_creation_timing w_stdout_breaks initial_state))) /\
  fst (test_vm_creation_timing w_normal initial_state) = Ok true /\
  fst (test_vm_creation_timing w_stdout_breaks initial_state) = Raise OSError /\
  stdout (snd (test_vm_creation_timing w_normal initial_state))
  <> stdout (snd (test_vm_creation_timing w_stdout_breaks initial_state)).
Proof.
  split; [reflexivity |].
  split; [right; left; reflexivity |].
  split; [right; left; reflexivity |].
  split; [reflexivity |].
  split; [reflexivity |].
  discriminate.
Qed.

(** C8, amended: two executions of [test_vm_creation_timing] that
    observe the same value of [time.time()] and the same outcomes of
    their writes to standard output behave identically: the same text,
    character for character, and the same return value or error. *)
Theorem deterministic_given_clock_and_stdout (w1 w2 : World) (s : State)
  (Hclock : clock w1 == clock w2)
  (Hout : forall n, stdout_ok w1 n = stdout_ok w2 n) :
  test_vm_creation_timing w1 s = test_vm_creation_timing w2 s /\
  stdout (snd (test_vm_creation_timing w1 s))
  = stdout (snd (test_vm_creation_timing w2 s)) /\
  fst (test_vm_creation_timing w1 s) = fst (test_vm_creation_timing w2 s).
Proof.
  assert (H : test_vm_creation_timing w1 s = test_vm_creation_timing w2 s).
  { rewrite !test_vm_creation_timing_realises.
    rewrite (function_events_Qeq _ _ Hclock).
    now rewrite (perform_ext w1 w2 _ Hout). }
  now rewrite H.
Qed.

(** Two worlds that read the same instant and accept every write. *)
Lemma deterministic_given_clock_and_stdout_witness :
  test_vm_creation_timing w_normal initial_state
  = test_vm_creation_timing w_other_env initial_state /\
  stdout (snd (test_vm_creation_timing w_normal initial_state))
  = stdout (snd (test_vm_creation_timing w_other_env initial_state)) /\
  fst (test_vm_creation_timing w_normal initial_state)
  = fst (test_vm_creation_timing w_other_env initial_state).
Proof.
  apply (deterministic_given_clock_and_stdout w_normal w_other_env initial_state).
  - unfold Qeq. simpl. reflexivity.
  - intros n. reflexivity.
Defined.

(** C9: the number in the job identifier is the clock reading truncated
    to whole seconds, so two invocations within the same second [n]
    that get as far as printing the request print the same identifier,
    [debug-test-] followed by the numeral of [n]; and there are
    invocations at different clock readings that print one and the
    same identifier: it is not unique. *)
Theorem same_second_same_printed_job_id (base1 base2 : string) (n : Z) (w1 w2 : World)
  (Hreach1 : reaches_request w1) (Hreach2 : reaches_request w2)
  (H1 : in_second n (clock w1)) (H2 : in_second n (clock w2)) :
  py_int (clock w1) = n /\
  py_int (clock w2) = n /\
  parse_int (py_str n) = Some n /\
  nth_error (printed (snd (run_script base1 w1))) 1
  = Some (request_head ++ "debug-test-" ++ py_str n ++ request_tail) /\
  nth_error (printed (snd (run_script base2 w2))) 1
  = Some (request_head ++ "debug-test-" ++ py_str n ++ request_tail) /\
  (exists wa wb,
      ~ clock wa == clock wb /\
      reaches_request wa /\ reaches_request wb /\
      nth_error (printed (snd (main wa))) 1 = nth_error (printed (snd (main wb))) 1 /\
      nth_error (printed (snd (main wa))) 1 <> None).
Proof.
  apply py_int_in_second in H1, H2.
  split; [exact H1 |]. split; [exact H2 |]. split; [apply parse_int_py_str |].
  split; [| split].
  - rewrite (run_reaches_request base1 w1 Hreach1), request_line_text. now rewrite H1.
  - rewrite (run_reaches_request base2 w2 Hreach2), request_line_text. now rewrite H2.
  - exists w_normal, w_same_second. split.
    + unfold Qeq. simpl. discriminate.
    + repeat split. discriminate.
Qed.

(** Two normal runs, half a second and three quarters of a second into
    second 1700000000. *)
Lemma same_second_same_printed_job_id_witness :
  nth_error (printed (snd (run_script OMA_API_BASE w_normal))) 1
  = Some (request_head ++ "debug-test-" ++ py_str 1700000000 ++ request_tail) /\
  nth_error (printed (snd (run_script OMA_API_BASE w_same_second))) 1
  = Some (request_head ++ "debug-test-" ++ py_str 1700000000 ++ request_tail).
Proof.
  assert (Hsecond : forall t, (1700000000 # 1) <= t -> t < (1700000001 # 1) ->
                              in_second 1700000000 t).
  { intros t Hlo Hhi. left. repeat split; [lia | exact Hlo | exact Hhi]. }
  pose proof (same_second_same_printed_job_id OMA_API_BASE OMA_API_BASE
                1700000000 w_normal w_same_second
                (conj eq_refl (conj eq_refl eq_refl))
                (conj eq_refl (conj eq_refl eq_refl))
                (Hsecond (clock w_normal) ltac:(unfold Qle; simpl; lia)
                                          ltac:(unfold Qlt; simpl; lia))
                (Hsecond (clock w_same_second) ltac:(unfold Qle; simpl; lia)
                                               ltac:(unfold Qlt; simpl; lia)))
    as (_ & _ & _ & Ha & Hb & _).
  exact (conj Ha Hb).
Defined.

(** C10: the imports come first, whatever [__name__] is; when
    [requests] cannot be imported the module stops with
    [ModuleNotFoundError] before anything else happens, a missing [sys]
    stops it too before any output, and a run that ends with status 0 had
    both available, although no effect of any run uses [requests]. *)
Theorem imports_are_a_precondition (base : string) (w : World) :
  (forall name s,
      installed w "requests" = false ->
      module_body base name w s = (Raise (ModuleNotFoundError "requests"), s)) /\
  (installed w "sys" = false ->
   exists name,
     fst (run_script base w) = Raise (ModuleNotFoundError name) /\
     printed (snd (run_script base w)) = []) /\
  (exit_status (fst (run_script base w)) = 0%Z ->
   installed w "requests" = true /\ installed w "sys" = true) /\
  existsb is_network (trace (snd (run_script base w))) = false.
Proof.
  repeat split.
  - intros name s Hreq. unfold module_body, bind, import. now rewrite Hreq.
  - intros Hsys. rewrite run_script_spec. unfold printed.
    pose proof (written_imports w imports) as Himp.
    destruct (load w imports) as [[name |] done] eqn:Hload; cbn [fst snd trace] in *.
    + now exists name.
    + exfalso. revert Hload. unfold imports, load. rewrite Hsys.
      destruct (installed w "requests"), (installed w "json"), (installed w "time");
        discriminate.
  - revert H. rewrite run_script_spec. unfold imports, load.
    destruct (installed w "requests"); [reflexivity | discriminate].
  - revert H. rewrite run_script_spec. unfold imports, load.
    destruct (installed w "requests"), (installed w "json"), (installed w "time"),
      (installed w "sys"); try reflexivity; discriminate.
  - destruct (existsb is_network (trace (snd (run_script base w)))) eqn:Hex;
      [| reflexivity].
    apply existsb_exists in Hex as (e & He & Hnet).
    apply (trace_incl base w) in He. simpl in He.
    intuition (subst; discriminate).
Qed.

(** The run without the [requests] package. *)
Lemma imports_are_a_precondition_witness :
  run_script OMA_API_BASE w_no_requests
  = (Raise (ModuleNotFoundError "requests"), initial_state).
Proof.
  apply (proj1 (imports_are_a_precondition OMA_API_BASE w_no_requests)).
  reflexivity.
Defined.


(** * Further properties of the script *)

(** ** Helpers *)

Lemma load_none_available (w : World) (names : list string) :
  fst (load w names) = None -> forallb (installed w) names = true.
Proof.
  induction names as [| name names IH]; simpl.
  - reflexivity.
  - destruct (installed w name); [| discriminate].
    destruct (load w names). simpl in *. exact IH.
Qed.

Lemma concat_nosep_cons (x : string) (l : list string) :
  String.concat "" (x :: l) = x ++ String.concat "" l.
Proof.
  destruct l as [| y l]; simpl; [| reflexivity].
  induction x as [| c x IH]; simpl; [reflexivity | now rewrite <- IH].
Qed.

Lemma concat_nosep_app (l1 l2 : list string) :
  String.concat "" (l1 ++ l2) = String.concat "" l1 ++ String.concat "" l2.
Proof.
  induction l1 as [| x l1 IH].
  - reflexivity.
  - rewrite <- app_comm_cons, !concat_nosep_cons, IH. now rewrite string_app_assoc.
Qed.

Lemma string_forallb_app (p : ascii -> bool) (a b : string) :
  string_forallb p (a ++ b) = string_forallb p a && string_forallb p b.
Proof.
  induction a as [| c a IH]; simpl; [reflexivity | now rewrite IH, andb_assoc].
Qed.

(** A numeral is made of digits and at most a minus sign. *)
Lemma digits_plain (d : Decimal.uint) :
  string_forallb (fun c => plain_char c && not_dquote c)
                 (NilEmpty.string_of_uint d) = true.
Proof. induction d; simpl; auto. Qed.

Lemma py_str_plain (n : Z) :
  string_forallb (fun c => plain_char c && not_dquote c) (py_str n) = true.
Proof.
  unfold py_str. destruct (Z.to_int n) as [d | d]; simpl.
  - destruct d; try reflexivity; apply (digits_plain (_ _)).
  - destruct d; try reflexivity; apply (digits_plain (_ _)).
Qed.

Lemma log_log (e1 e2 : event) (s : State) :
  log e2 (log e1 s) = extend s [e1; e2].
Proof. unfold log, extend. simpl. now rewrite <- app_assoc. Qed.

Lemma log_extend (e : event) (evs : list event) (s : State) :
  log e (extend s evs) = extend s (evs ++ [e]).
Proof. unfold log, extend. simpl. now rewrite <- app_assoc. Qed.

Lemma clock_free_imports (w : World) (names : list string) :
  filter is_clock (snd (load w names)) = [].
Proof.
  pose proof (load_imports_only w names) as H.
  induction H as [| e tr [name ->] _ IH]; simpl; auto.
Qed.

(** ** Importing the file instead of running it *)

(** Under a [__name__] other than ["__main__"] the module body is the
    imports and the binding of the constant. *)
Lemma module_body_imported (base name : string) (w : World) (s : State) :
  name <> "__main__" ->
  module_body base name w s =
  match load w imports with
  | (Some missing, done) => (Raise (ModuleNotFoundError missing), extend s done)
  | (None, done) =>
      (Ok tt, {| globals := ("OMA_API_BASE", base) :: globals s;
                 trace := trace s ++ done |})
  end.
Proof.
  intros Hname. apply String.eqb_neq in Hname.
  unfold module_body, imports, load.
  unfold bind at 1, import at 1.
  destruct (installed w "requests"); [| now rewrite extend_nil].
  unfold bind at 1, import at 1.
  destruct (installed w "json"); [| reflexivity].
  rewrite log_log. unfold bind at 1, import at 1.
  destruct (installed w "time"); [| reflexivity].
  rewrite log_extend. unfold bind at 1, import at 1.
  destruct (installed w "sys"); [| reflexivity].
  rewrite log_extend. unfold bind, assign, ret. rewrite Hname. reflexivity.
Qed.

(** Under any [__name__] other than ["__main__"] the guard skips the
    call: loading the file prints nothing and reads no clock, whatever
    state standard output is in; it succeeds exactly when the four
    modules can be imported, and then binds the constant. *)
Theorem imported_module_is_silent (base name : string) (w : World) (s : State)
  (Hname : name <> "__main__") :
  printed (snd (module_body base name w s)) = printed s /\
  filter is_clock (trace (snd (module_body base name w s)))
  = filter is_clock (trace s) /\
  (fst (module_body base name w s) = Ok tt <-> modules_available w) /\
  (modules_available w ->
   globals (snd (module_body base name w s)) = ("OMA_API_BASE", base) :: globals s).
Proof.
  rewrite (module_body_imported base name w s Hname).
  pose proof (written_imports w imports) as Hsilent.
  pose proof (clock_free_imports w imports) as Hclock.
  pose proof (load_none_available w imports) as Hnone.
  pose proof (load_available w imports) as Havail.
  unfold modules_available, printed.
  destruct (load w imports) as [[missing |] done];
    cbn [fst snd trace globals extend] in *;
    rewrite written_app, filter_app, Hsilent, Hclock, !app_nil_r;
    repeat split; auto; try discriminate.
  - intros Hmods. specialize (Havail Hmods). discriminate.
  - intros Hmods. specialize (Havail Hmods). discriminate.
Qed.

(** Loaded as a library while standard output refuses every write. *)
Lemma imported_module_is_silent_witness :
  printed (snd (module_body OMA_API_BASE "debug_vm_creation" w_stdout_closed initial_state))
  = printed initial_state /\
  filter is_clock
    (trace (snd (module_body OMA_API_BASE "debug_vm_creation" w_stdout_closed initial_state)))
  = filter is_clock (trace initial_state) /\
  (fst (module_body OMA_API_BASE "debug_vm_creation" w_stdout_closed initial_state) = Ok tt
   <-> modules_available w_stdout_closed) /\
  (modules_available w_stdout_closed ->
   globals (snd (module_body OMA_API_BASE "debug_vm_creation" w_stdout_closed initial_state))
   = ("OMA_API_BASE", OMA_API_BASE) :: globals initial_state).
Proof.
  apply (imported_module_is_silent OMA_API_BASE "debug_vm_creation"
           w_stdout_closed initial_state).
  discriminate.
Defined.

(** Whatever happens, the text on standard output is a beginning of
    the text of the complete run: a run that stops early leaves nothing
    out of order and nothing that a complete run would not print. *)
Theorem stdout_is_a_beginning_of_the_complete_text (base : string) (w : World) :
  exists rest,
    String.concat "" (complete_output (clock w))
    = stdout (snd (run_script base w)) ++ rest.
Proof.
  destruct (printed_prefix base w) as [rest Hrest].
  exists (String.concat "" rest).
  unfold complete_output, stdout. rewrite Hrest. apply concat_nosep_app.
Qed.

(** ** What the output is made of *)

Lemma string_forallb_weaken (p q : ascii -> bool) (s : string) :
  (forall c, p c = true -> q c = true) ->
  string_forallb p s = true -> string_forallb q s = true.
Proof.
  intros Hpq. induction s as [| c s IH]; simpl; [reflexivity |].
  intros H. apply andb_true_iff in H as [Hc Hs].
  now rewrite (Hpq c Hc), IH.
Qed.

Lemma request_line_plain (now : Q) :
  string_forallb plain_char (request_line now) = true.
Proof.
  rewrite request_line_text, !string_forallb_app.
  rewrite (string_forallb_weaken _ plain_char _ (fun c H => proj1 (andb_prop _ _ H))
             (py_str_plain (py_int now))).
  reflexivity.
Qed.

Lemma complete_output_plain (now : Q) :
  Forall (fun chunk => string_forallb plain_char chunk = true) (complete_output now).
Proof.
  unfold complete_output. constructor; [reflexivity |].
  constructor; [apply request_line_plain |].
  unfold narrative, steps, closing_warning. cbn [app].
  repeat (constructor; [reflexivity |]). constructor.
Qed.

Lemma concat_plain (l : list string) :
  Forall (fun chunk => string_forallb plain_char chunk = true) l ->
  string_forallb plain_char (String.concat "" l) = true.
Proof.
  induction 1 as [| x l Hx _ IH]; [reflexivity |].
  now rewrite concat_nosep_cons, string_forallb_app, Hx, IH.
Qed.

(** Every character a run writes to standard output, complete or not
    and at any clock reading, is printable ASCII or a line feed: the
    text can be encoded in any ASCII-compatible encoding. *)
Theorem output_is_plain_ascii (base : string) (w : World) :
  string_forallb plain_char (stdout (snd (run_script base w))) = true.
Proof.
  destruct (printed_prefix base w) as [rest Hrest].
  apply concat_plain.
  pose proof (complete_output_plain (clock w)) as Hall.
  unfold complete_output in Hall. rewrite Hrest in Hall.
  apply Forall_app in Hall. exact (proj1 Hall).
Qed.

Lemma append_inj_l (p a b : string) : p ++ a = p ++ b -> a = b.
Proof.
  induction p as [| c p IH]; simpl; [auto |].
  intros H. injection H as H. auto.
Qed.

(** Two texts free of double quotes, each followed by a double quote,
    are equal when the whole strings are. *)
Lemma quote_terminated_inj (s1 s2 r1 r2 : string) :
  string_forallb not_dquote s1 = true ->
  string_forallb not_dquote s2 = true ->
  s1 ++ String dquote r1 = s2 ++ String dquote r2 ->
  s1 = s2.
Proof.
  revert s2. induction s1 as [| c1 s1 IH]; intros [| c2 s2]; simpl; intros H1 H2 H.
  - reflexivity.
  - injection H as Hc _. subst c2. discriminate H2.
  - injection H as Hc _. subst c1. discriminate H1.
  - apply andb_true_iff in H1 as [_ H1]. apply andb_true_iff in H2 as [_ H2].
    injection H as -> H. f_equal. now apply IH.
Qed.

Lemma request_line_inj (t1 t2 : Q) (r1 r2 : string) :
  request_line t1 ++ r1 = request_line t2 ++ r2 -> py_int t1 = py_int t2.
Proof.
  rewrite !request_line_text, !string_app_assoc.
  intros H. apply append_inj_l in H. apply append_inj_l in H.
  unfold request_tail in H. cbn [append] in H.
  apply py_str_inj.
  apply (quote_terminated_inj _ _ _ _
           (string_forallb_weaken _ not_dquote _ (fun c H => proj2 (andb_prop _ _ H))
              (py_str_plain (py_int t1)))
           (string_forallb_weaken _ not_dquote _ (fun c H => proj2 (andb_prop _ _ H))
              (py_str_plain (py_int t2)))
           H).
Qed.

Lemma stdout_normal (base : string) (w : World) :
  modules_available w -> stdout_writable w ->
  stdout (snd (run_script base w))
  = header ++ request_line (clock w) ++ String.concat "" narrative.
Proof.
  intros Hmods Hout. rewrite (run_script_normal base w Hmods Hout).
  unfold stdout. cbn [snd trace].
  change (written (map EvImport imports ++ function_events (clock w)))
    with (header :: request_line (clock w) :: narrative).
  now rewrite !concat_nosep_cons.
Qed.

(** Two complete runs write the same text exactly when their clock
    readings truncate to the same whole second: the second can be told
    from the output, and nothing else of the environment can. *)
Theorem same_text_iff_same_second (base1 base2 : string) (w1 w2 : World)
  (Hmods1 : modules_available w1) (Hout1 : stdout_writable w1)
  (Hmods2 : modules_available w2) (Hout2 : stdout_writable w2) :
  stdout (snd (run_script base1 w1)) = stdout (snd (run_script base2 w2))
  <-> py_int (clock w1) = py_int (clock w2).
Proof.
  rewrite (stdout_normal base1 w1 Hmods1 Hout1), (stdout_normal base2 w2 Hmods2 Hout2).
  split.
  - intros H. apply append_inj_l in H. now apply request_line_inj in H.
  - intros H. unfold request_line, test_vm_request. now rewrite H.
Qed.

(** Two readings within one second, two texts that agree. *)
Lemma same_text_iff_same_second_witness :
  stdout (snd (run_script OMA_API_BASE w_normal))
  = stdout (snd (run_script OMA_API_BASE w_same_second))
  <-> py_int (clock w_normal) = py_int (clock w_same_second).
Proof.
  apply (same_text_iff_same_second OMA_API_BASE OMA_API_BASE w_normal w_same_second).
  - reflexivity.
  - intros n. reflexivity.
  - reflexivity.
  - intros n. reflexivity.
Defined.

(** ** What a call leaves behind *)

(** A call of [test_vm_creation_timing], whatever its outcome, leaves
    the globals alone and only adds effects after those already there:
    writes to standard output and at most one clock read, never a
    module load or a connection. *)
Theorem call_only_appends_output (w : World) (s : State) :
  globals (snd (test_vm_creation_timing w s)) = globals s /\
  exists evs,
    trace (snd (test_vm_creation_timing w s)) = (trace s ++ evs)%list /\
    forallb (fun e => is_clock e || is_stdout e) evs = true /\
    (length (filter is_clock evs) <= 1)%nat.
Proof.
  split; [now rewrite test_vm_creation_timing_realises |].
  exists (snd (perform w (writes s) (function_events (clock w)))).
  split; [now rewrite test_vm_creation_timing_realises |].
  destruct (perform_prefix w (function_events (clock w)) (writes s)) as [rest Hrest].
  split.
  - apply forallb_forall. intros e He.
    apply (perform_incl w (writes s) (function_events (clock w))) in He.
    simpl in He. intuition (subst; reflexivity).
  - assert (Hone : length (filter is_clock (function_events (clock w))) = 1%nat)
      by reflexivity.
    rewrite Hrest, filter_app, length_app in Hone. lia.
Qed.

(** ** Identifiers over time *)

(** From the epoch on, the truncated reading is the whole second the
    reading lies in. *)
Lemma py_int_bounds (t : Q) :
  0 <= t -> inject_Z (py_int t) <= t /\ t < inject_Z (py_int t) + 1.
Proof.
  intros Ht. rewrite (py_int_floor t Ht). split.
  - apply Qfloor_le.
  - pose proof (Qlt_floor t) as H. rewrite inject_Z_plus in H. exact H.
Qed.

(** Two invocations that get as far as printing the request, at clock
    readings at least one second apart, the first not before the
    epoch, print different request lines, the later one with the
    larger number: identifiers can only repeat within a second. *)
Theorem a_second_apart_new_job_id (base1 base2 : string) (w1 w2 : World)
  (Hreach1 : reaches_request w1) (Hreach2 : reaches_request w2)
  (Hepoch : 0 <= clock w1)
  (Hlater : clock w1 + 1 <= clock w2) :
  nth_error (printed (snd (run_script base1 w1))) 1
  = Some (request_head ++ "debug-test-" ++ py_str (py_int (clock w1)) ++ request_tail) /\
  nth_error (printed (snd (run_script base2 w2))) 1
  = Some (request_head ++ "debug-test-" ++ py_str (py_int (clock w2)) ++ request_tail) /\
  (py_int (clock w1) < py_int (clock w2))%Z /\
  nth_error (printed (snd (run_script base1 w1))) 1
  <> nth_error (printed (snd (run_script base2 w2))) 1.
Proof.
  assert (Hlt : (py_int (clock w1) < py_int (clock w2))%Z).
  { destruct (py_int_bounds (clock w1) Hepoch) as [Hlo1 _].
    assert (Hepoch2 : 0 <= clock w2) by lra.
    destruct (py_int_bounds (clock w2) Hepoch2) as [_ Hhi2].
    rewrite Zlt_Qlt. lra. }
  rewrite (run_reaches_request base1 w1 Hreach1), (run_reaches_request base2 w2 Hreach2).
  split; [now rewrite request_line_text |].
  split; [now rewrite request_line_text |].
  split; [exact Hlt |].
  intros H.
  apply (f_equal (fun chunk => match chunk with
                               | Some text => text ++ ""
                               | None => ""
                               end)) in H.
  apply request_line_inj in H. lia.
Qed.

(** Two normal runs seven seconds apart. *)
Lemma a_second_apart_new_job_id_witness :
  (py_int (clock w_normal) < py_int (clock w_later))%Z /\
  nth_error (printed (snd (run_script OMA_API_BASE w_normal))) 1
  <> nth_error (printed (snd (run_script OMA_API_BASE w_later))) 1.
Proof.
  apply (a_second_apart_new_job_id OMA_API_BASE OMA_API_BASE w_normal w_later).
  - repeat split.
  - repeat split.
  - unfold Qle. simpl. lia.
  - unfold Qle. simpl. lia.
Defined.
